(** * TripIt entity and edge types for Graphiti

    Shallow embedding of [examples/tripit/tripit_entity_types.py]: the
    pydantic model classes that describe the node and relationship
    categories of the TripIt data model, and the three configuration
    dictionaries [ENTITY_TYPES], [EDGE_TYPES] and [EDGE_TYPE_MAP] handed to
    Graphiti's [add_episode].

    Python dictionaries are finite maps ([gmap]); a dictionary display
    [{k1: v1, ..., kn: vn}] is the map obtained by storing its items from
    left to right.  A model class is the record of its name, its docstring
    and its annotated attributes in declaration order. *)

From Stdlib Require Import Floats.SpecFloat.
From stdpp Require Import gmap strings list fin_maps.

Open Scope string_scope.

(** ** Python dictionaries *)

(** [{k1: v1, ..., kn: vn}]: the items are inserted in source order, so a
    later item overrides an earlier one with the same key. *)
Definition dict_literal {K V : Type} `{Countable K}
    (items : list (K * V)) : gmap K V :=
  foldl (λ d kv, <[kv.1 := kv.2]> d) ∅ items.

(** ** Python values and annotations *)

(** The builtin types an attribute annotation may name; [py_None] is the
    [None] member of a union such as [str | None]. *)
Inductive PyType : Set :=
  | py_str | py_bool | py_int | py_float | py_bytes | py_None.

(** Runtime values of those types.  A float is an IEEE 754 binary64 datum. *)
Inductive Value : Set :=
  | PyNone
  | PyStr (s : string)
  | PyBool (b : bool)
  | PyInt (n : Z)
  | PyFloat (x : spec_float)
  | PyBytes (bs : list Byte.byte).

Definition type_of (v : Value) : PyType :=
  match v with
  | PyNone => py_None
  | PyStr _ => py_str
  | PyBool _ => py_bool
  | PyInt _ => py_int
  | PyFloat _ => py_float
  | PyBytes _ => py_bytes
  end.

#[global] Instance PyType_eq_dec : EqDecision PyType.
Proof. solve_decision. Defined.

#[global] Instance spec_float_eq_dec : EqDecision spec_float.
Proof. solve_decision. Defined.

#[global] Instance byte_eq_dec : EqDecision Byte.byte.
Proof. intros a b. exact (Byte.byte_eq_dec a b). Defined.

#[global] Instance Value_eq_dec : EqDecision Value.
Proof. solve_decision. Defined.

(** ** pydantic fields and model classes *)

(** The first argument of [Field(...)]: the attribute's default, or
    [PydanticUndefined] when none is given and the attribute is required. *)
Inductive Default : Set :=
  | PydanticUndefined
  | DefaultValue (v : Value).

#[global] Instance Default_eq_dec : EqDecision Default.
Proof. solve_decision. Defined.

(** [Field(default, description=...)]. *)
Record FieldInfo : Set := Field {
  default : Default;
  description : string
}.

(** An annotated class attribute [name: annotation = Field(...)].  The
    annotation is the list of the members of its union, so [str | None] is
    [[py_str; py_None]]. *)
Record Attribute : Set := attr {
  attr_name : string;
  annotation : list PyType;
  field_info : FieldInfo
}.

(** A subclass of [pydantic.BaseModel]: its [__name__], its [__doc__] and
    its attributes in declaration order. *)
Record BaseModel : Set := {
  cls_name : string;
  cls_doc : string;
  model_fields : list Attribute
}.

(** The double-quote character, and a quoted example as the descriptions
    write them ([e.g., "SFO"]). *)
Definition dq : string := String (Ascii.ascii_of_nat 34) EmptyString.
Definition ex (s : string) : string := dq +:+ s +:+ dq.

(** ** Entity types (node categories) *)

(** *** Travel reservations *)

Definition Trip : BaseModel := {|
  cls_name := "Trip";
  cls_doc := "A planned trip or journey, serving as the top-level container for all travel
    reservations, activities, and notes. A trip has a destination, date range, and
    groups together flights, lodging, car rentals, and other travel objects.";
  model_fields := [
    attr "start_date" [py_str; py_None]
      (Field (DefaultValue PyNone) "Trip start date (YYYY-MM-DD)");
    attr "end_date" [py_str; py_None]
      (Field (DefaultValue PyNone) "Trip end date (YYYY-MM-DD)");
    attr "destination" [py_str; py_None]
      (Field (DefaultValue PyNone) "Primary destination city or region");
    attr "is_private" [py_bool; py_None]
      (Field (DefaultValue PyNone) "Whether the trip is private")
  ]
|}.

Definition Flight : BaseModel := {|
  cls_name := "Flight";
  cls_doc := "A flight reservation or individual flight segment. Represents air travel between
    two airports, including marketing/operating airline, flight number, and cabin class.";
  model_fields := [
    attr "airline_code" [py_str; py_None]
      (Field (DefaultValue PyNone)
         ("IATA airline code (e.g., " +:+ ex "UA" +:+ ", " +:+ ex "DL" +:+ ")"));
    attr "flight_number" [py_str; py_None]
      (Field (DefaultValue PyNone) ("Flight number (e.g., " +:+ ex "1234" +:+ ")"));
    attr "departure_airport" [py_str; py_None]
      (Field (DefaultValue PyNone) ("Departure airport IATA code (e.g., " +:+ ex "SFO" +:+ ")"));
    attr "arrival_airport" [py_str; py_None]
      (Field (DefaultValue PyNone) ("Arrival airport IATA code (e.g., " +:+ ex "JFK" +:+ ")"));
    attr "departure_time" [py_str; py_None]
      (Field (DefaultValue PyNone) "Scheduled departure date and time");
    attr "arrival_time" [py_str; py_None]
      (Field (DefaultValue PyNone) "Scheduled arrival date and time");
    attr "service_class" [py_str; py_None]
      (Field (DefaultValue PyNone)
         ("Class of service (e.g., " +:+ ex "economy" +:+ ", " +:+ ex "business" +:+ ", " +:+ ex "first" +:+ ")"));
    attr "aircraft_type" [py_str; py_None]
      (Field (DefaultValue PyNone) ("Aircraft type (e.g., " +:+ ex "Boeing 737-800" +:+ ")"));
    attr "seat_assignment" [py_str; py_None]
      (Field (DefaultValue PyNone) ("Seat assignment (e.g., " +:+ ex "12A" +:+ ")"));
    attr "confirmation_number" [py_str; py_None]
      (Field (DefaultValue PyNone) "Booking confirmation number");
    attr "record_locator" [py_str; py_None]
      (Field (DefaultValue PyNone) "PNR record locator")
  ]
|}.

Definition Lodging : BaseModel := {|
  cls_name := "Lodging";
  cls_doc := "A hotel, resort, vacation rental, or other accommodation booking. Represents
    a stay at a lodging property with check-in/check-out dates and room details.";
  model_fields := [
    attr "check_in_date" [py_str; py_None]
      (Field (DefaultValue PyNone) "Check-in date");
    attr "check_out_date" [py_str; py_None]
      (Field (DefaultValue PyNone) "Check-out date");
    attr "room_type" [py_str; py_None]
      (Field (DefaultValue PyNone) ("Room type (e.g., " +:+ ex "King Suite" +:+ ")"));
    attr "number_of_rooms" [py_str; py_None]
      (Field (DefaultValue PyNone) "Number of rooms booked");
    attr "number_of_guests" [py_str; py_None]
      (Field (DefaultValue PyNone) "Number of guests");
    attr "confirmation_number" [py_str; py_None]
      (Field (DefaultValue PyNone) "Booking confirmation number")
  ]
|}.

Definition CarRental : BaseModel := {|
  cls_name := "CarRental";
  cls_doc := "A car rental reservation. Represents a vehicle rental with pickup and
    dropoff locations, dates, and vehicle details.";
  model_fields := [
    attr "pickup_date" [py_str; py_None]
      (Field (DefaultValue PyNone) "Pickup date and time");
    attr "dropoff_date" [py_str; py_None]
      (Field (DefaultValue PyNone) "Dropoff date and time");
    attr "car_type" [py_str; py_None]
      (Field (DefaultValue PyNone)
         ("Vehicle category (e.g., " +:+ ex "compact" +:+ ", " +:+ ex "SUV" +:+ ", " +:+ ex "luxury" +:+ ")"));
    attr "car_description" [py_str; py_None]
      (Field (DefaultValue PyNone) "Vehicle description");
    attr "pickup_location" [py_str; py_None]
      (Field (DefaultValue PyNone) "Pickup location name");
    attr "dropoff_location" [py_str; py_None]
      (Field (DefaultValue PyNone) "Dropoff location name");
    attr "confirmation_number" [py_str; py_None]
      (Field (DefaultValue PyNone) "Booking confirmation number")
  ]
|}.

Definition RailJourney : BaseModel := {|
  cls_name := "RailJourney";
  cls_doc := "A rail or train reservation. Represents train travel between stations,
    including carrier, train number, and service class.";
  model_fields := [
    attr "carrier" [py_str; py_None]
      (Field (DefaultValue PyNone)
         ("Rail carrier name (e.g., " +:+ ex "Amtrak" +:+ ", " +:+ ex "Eurostar" +:+ ")"));
    attr "train_number" [py_str; py_None]
      (Field (DefaultValue PyNone) "Train number");
    attr "departure_station" [py_str; py_None]
      (Field (DefaultValue PyNone) "Departure station name");
    attr "arrival_station" [py_str; py_None]
      (Field (DefaultValue PyNone) "Arrival station name");
    attr "departure_time" [py_str; py_None]
      (Field (DefaultValue PyNone) "Departure date and time");
    attr "arrival_time" [py_str; py_None]
      (Field (DefaultValue PyNone) "Arrival date and time");
    attr "service_class" [py_str; py_None]
      (Field (DefaultValue PyNone) "Class of service");
    attr "seat_assignment" [py_str; py_None]
      (Field (DefaultValue PyNone) "Seat or coach assignment");
    attr "confirmation_number" [py_str; py_None]
      (Field (DefaultValue PyNone) "Booking confirmation number")
  ]
|}.

Definition Cruise : BaseModel := {|
  cls_name := "Cruise";
  cls_doc := "A cruise reservation. Represents a cruise voyage with ship, cabin, and
    port of call information.";
  model_fields := [
    attr "ship_name" [py_str; py_None]
      (Field (DefaultValue PyNone) "Name of the cruise ship");
    attr "cabin_number" [py_str; py_None]
      (Field (DefaultValue PyNone) "Cabin number");
    attr "cabin_type" [py_str; py_None]
      (Field (DefaultValue PyNone)
         ("Cabin type (e.g., " +:+ ex "interior" +:+ ", " +:+ ex "balcony" +:+ ", " +:+ ex "suite" +:+ ")"));
    attr "departure_date" [py_str; py_None]
      (Field (DefaultValue PyNone) "Embarkation date");
    attr "return_date" [py_str; py_None]
      (Field (DefaultValue PyNone) "Disembarkation date");
    attr "departure_port" [py_str; py_None]
      (Field (DefaultValue PyNone) "Port of embarkation");
    attr "confirmation_number" [py_str; py_None]
      (Field (DefaultValue PyNone) "Booking confirmation number")
  ]
|}.

Definition GroundTransport : BaseModel := {|
  cls_name := "GroundTransport";
  cls_doc := "Ground transportation such as a shuttle, limousine, bus, taxi, or ride service.
    Represents non-flight, non-rail transport between locations.";
  model_fields := [
    attr "transport_type" [py_str; py_None]
      (Field (DefaultValue PyNone)
         ("Type of transport (e.g., " +:+ ex "shuttle" +:+ ", " +:+ ex "limousine" +:+ ", " +:+ ex "bus" +:+ ", " +:+ ex "taxi" +:+ ")"));
    attr "carrier" [py_str; py_None]
      (Field (DefaultValue PyNone) "Transport provider name");
    attr "pickup_location" [py_str; py_None]
      (Field (DefaultValue PyNone) "Pickup location");
    attr "dropoff_location" [py_str; py_None]
      (Field (DefaultValue PyNone) "Dropoff location");
    attr "pickup_time" [py_str; py_None]
      (Field (DefaultValue PyNone) "Pickup date and time");
    attr "confirmation_number" [py_str; py_None]
      (Field (DefaultValue PyNone) "Booking confirmation number")
  ]
|}.

Definition Restaurant : BaseModel := {|
  cls_name := "Restaurant";
  cls_doc := "A restaurant reservation. Represents a dining reservation at a specific
    restaurant with time, party size, and cuisine details.";
  model_fields := [
    attr "cuisine" [py_str; py_None]
      (Field (DefaultValue PyNone) "Type of cuisine");
    attr "reservation_time" [py_str; py_None]
      (Field (DefaultValue PyNone) "Reservation date and time");
    attr "party_size" [py_str; py_None]
      (Field (DefaultValue PyNone) "Number of diners");
    attr "price_range" [py_str; py_None]
      (Field (DefaultValue PyNone) "Price range indicator");
    attr "dress_code" [py_str; py_None]
      (Field (DefaultValue PyNone) "Dress code if applicable");
    attr "confirmation_number" [py_str; py_None]
      (Field (DefaultValue PyNone) "Reservation confirmation number")
  ]
|}.

Definition Activity : BaseModel := {|
  cls_name := "Activity";
  cls_doc := "A planned activity, tour, excursion, or event during a trip. Represents
    things like museum visits, guided tours, shows, or sporting events.";
  model_fields := [
    attr "activity_type" [py_str; py_None]
      (Field (DefaultValue PyNone)
         ("Type of activity (e.g., " +:+ ex "tour" +:+ ", " +:+ ex "museum" +:+ ", " +:+ ex "show" +:+ ", " +:+ ex "excursion" +:+ ")"));
    attr "start_time" [py_str; py_None]
      (Field (DefaultValue PyNone) "Activity start date and time");
    attr "end_time" [py_str; py_None]
      (Field (DefaultValue PyNone) "Activity end date and time");
    attr "venue" [py_str; py_None]
      (Field (DefaultValue PyNone) "Venue or location name");
    attr "confirmation_number" [py_str; py_None]
      (Field (DefaultValue PyNone) "Booking confirmation number")
  ]
|}.

(** *** People *)

Definition Traveler : BaseModel := {|
  cls_name := "Traveler";
  cls_doc := "A person who is traveling or associated with travel reservations. May be a
    passenger on a flight, a guest at a hotel, a driver on a car rental, or a
    participant in an activity.";
  model_fields := [
    attr "first_name" [py_str; py_None]
      (Field (DefaultValue PyNone) "First name");
    attr "last_name" [py_str; py_None]
      (Field (DefaultValue PyNone) "Last name");
    attr "email" [py_str; py_None]
      (Field (DefaultValue PyNone) "Email address");
    attr "frequent_traveler_number" [py_str; py_None]
      (Field (DefaultValue PyNone) "Loyalty or frequent traveler program number");
    attr "meal_preference" [py_str; py_None]
      (Field (DefaultValue PyNone) "Meal preference for flights");
    attr "seat_preference" [py_str; py_None]
      (Field (DefaultValue PyNone)
         ("Seat preference (e.g., " +:+ ex "window" +:+ ", " +:+ ex "aisle" +:+ ")"))
  ]
|}.

(** *** Locations *)

Definition Airport : BaseModel := {|
  cls_name := "Airport";
  cls_doc := "An airport. Identified by its IATA code and associated with a city.";
  model_fields := [
    attr "iata_code" [py_str; py_None]
      (Field (DefaultValue PyNone)
         ("IATA airport code (e.g., " +:+ ex "SFO" +:+ ", " +:+ ex "LHR" +:+ ")"));
    attr "city" [py_str; py_None]
      (Field (DefaultValue PyNone) "City the airport serves");
    attr "country" [py_str; py_None]
      (Field (DefaultValue PyNone) "Country code");
    attr "latitude" [py_float; py_None]
      (Field (DefaultValue PyNone) "Airport latitude");
    attr "longitude" [py_float; py_None]
      (Field (DefaultValue PyNone) "Airport longitude")
  ]
|}.

Definition City : BaseModel := {|
  cls_name := "City";
  cls_doc := "A city or metropolitan area, typically a travel destination or origin.";
  model_fields := [
    attr "country" [py_str; py_None]
      (Field (DefaultValue PyNone) "Country the city is in");
    attr "state_or_region" [py_str; py_None]
      (Field (DefaultValue PyNone) "State, province, or region");
    attr "timezone" [py_str; py_None]
      (Field (DefaultValue PyNone) ("IANA timezone (e.g., " +:+ ex "America/New_York" +:+ ")"))
  ]
|}.

Definition Venue : BaseModel := {|
  cls_name := "Venue";
  cls_doc := "A specific named place such as a hotel property, restaurant, museum, train
    station, cruise port, or other point of interest.";
  model_fields := [
    attr "venue_type" [py_str; py_None]
      (Field (DefaultValue PyNone)
         ("Type of venue (e.g., " +:+ ex "hotel" +:+ ", " +:+ ex "restaurant" +:+ ", " +:+ ex "museum" +:+ ", " +:+ ex "train_station" +:+ ", " +:+ ex "cruise_port" +:+ ")"));
    attr "address" [py_str; py_None]
      (Field (DefaultValue PyNone) "Street address");
    attr "phone" [py_str; py_None]
      (Field (DefaultValue PyNone) "Phone number");
    attr "url" [py_str; py_None]
      (Field (DefaultValue PyNone) "Website URL");
    attr "latitude" [py_float; py_None]
      (Field (DefaultValue PyNone) "Venue latitude");
    attr "longitude" [py_float; py_None]
      (Field (DefaultValue PyNone) "Venue longitude")
  ]
|}.

(** *** Organizations *)

Definition Airline : BaseModel := {|
  cls_name := "Airline";
  cls_doc := "An airline company that operates or markets flights.";
  model_fields := [
    attr "iata_code" [py_str; py_None]
      (Field (DefaultValue PyNone)
         ("IATA airline code (e.g., " +:+ ex "UA" +:+ ", " +:+ ex "BA" +:+ ")"));
    attr "alliance" [py_str; py_None]
      (Field (DefaultValue PyNone)
         ("Airline alliance (e.g., " +:+ ex "Star Alliance" +:+ ", " +:+ ex "oneworld" +:+ ")"))
  ]
|}.

Definition TransportProvider : BaseModel := {|
  cls_name := "TransportProvider";
  cls_doc := "A company that provides transportation services such as car rentals,
    rail service, cruise lines, shuttle services, or ride-hailing.";
  model_fields := [
    attr "provider_type" [py_str; py_None]
      (Field (DefaultValue PyNone)
         ("Type of provider (e.g., " +:+ ex "car_rental" +:+ ", " +:+ ex "rail" +:+ ", " +:+ ex "cruise_line" +:+ ", " +:+ ex "shuttle" +:+ ", " +:+ ex "ride_service" +:+ ")"));
    attr "phone" [py_str; py_None]
      (Field (DefaultValue PyNone) "Contact phone number");
    attr "url" [py_str; py_None]
      (Field (DefaultValue PyNone) "Website URL")
  ]
|}.

Definition LoyaltyProgram : BaseModel := {|
  cls_name := "LoyaltyProgram";
  cls_doc := "A frequent traveler loyalty or points program, such as airline miles
    programs, hotel rewards, or rental car loyalty programs.";
  model_fields := [
    attr "program_type" [py_str; py_None]
      (Field (DefaultValue PyNone)
         ("Type of program (e.g., " +:+ ex "airline_miles" +:+ ", " +:+ ex "hotel_points" +:+ ", " +:+ ex "car_rental" +:+ ")"));
    attr "balance" [py_str; py_None]
      (Field (DefaultValue PyNone) "Current points or miles balance");
    attr "elite_status" [py_str; py_None]
      (Field (DefaultValue PyNone)
         ("Elite tier status (e.g., " +:+ ex "Gold" +:+ ", " +:+ ex "Platinum" +:+ ")"))
  ]
|}.

(** ** Edge types (relationship categories) *)

Definition PartOfTrip : BaseModel := {|
  cls_name := "PartOfTrip";
  cls_doc := "A reservation, activity, or note belongs to a specific trip. This is the
    primary containment relationship linking travel objects to their parent trip.";
  model_fields := []
|}.

Definition DepartsFrom : BaseModel := {|
  cls_name := "DepartsFrom";
  cls_doc := "A flight, rail journey, cruise, or ground transport departs from a
    specific airport, station, port, or location.";
  model_fields := [
    attr "scheduled_time" [py_str; py_None]
      (Field (DefaultValue PyNone) "Scheduled departure date and time");
    attr "terminal" [py_str; py_None]
      (Field (DefaultValue PyNone) "Terminal or platform");
    attr "gate" [py_str; py_None]
      (Field (DefaultValue PyNone) "Gate number")
  ]
|}.

Definition ArrivesAt : BaseModel := {|
  cls_name := "ArrivesAt";
  cls_doc := "A flight, rail journey, cruise, or ground transport arrives at a
    specific airport, station, port, or location.";
  model_fields := [
    attr "scheduled_time" [py_str; py_None]
      (Field (DefaultValue PyNone) "Scheduled arrival date and time");
    attr "terminal" [py_str; py_None]
      (Field (DefaultValue PyNone) "Terminal or platform");
    attr "gate" [py_str; py_None]
      (Field (DefaultValue PyNone) "Gate number");
    attr "baggage_claim" [py_str; py_None]
      (Field (DefaultValue PyNone) "Baggage claim area")
  ]
|}.

Definition LocatedAt : BaseModel := {|
  cls_name := "LocatedAt";
  cls_doc := "A lodging, restaurant, activity, or other place-bound entity is
    physically located at a specific venue or address.";
  model_fields := []
|}.

Definition LocatedIn : BaseModel := {|
  cls_name := "LocatedIn";
  cls_doc := "An airport, venue, or other location is situated within a city or region.";
  model_fields := []
|}.

Definition OperatedBy : BaseModel := {|
  cls_name := "OperatedBy";
  cls_doc := "A flight is operated by an airline, or a transport/rental/cruise is
    provided by a transport provider.";
  model_fields := [
    attr "operating_code" [py_str; py_None]
      (Field (DefaultValue PyNone) "Operating carrier code if different from marketing carrier")
  ]
|}.

Definition BookedWith : BaseModel := {|
  cls_name := "BookedWith";
  cls_doc := "A reservation was booked through a specific booking site, travel agent,
    or provider.";
  model_fields := [
    attr "booking_site" [py_str; py_None]
      (Field (DefaultValue PyNone) "Name of the booking site or agency");
    attr "booking_reference" [py_str; py_None]
      (Field (DefaultValue PyNone) "Booking site confirmation number");
    attr "booking_date" [py_str; py_None]
      (Field (DefaultValue PyNone) "Date the booking was made");
    attr "total_cost" [py_str; py_None]
      (Field (DefaultValue PyNone) "Total cost of the booking")
  ]
|}.

Definition TravelerOn : BaseModel := {|
  cls_name := "TravelerOn";
  cls_doc := "A traveler is a passenger, guest, driver, or participant on a reservation.
    The role varies by reservation type (passenger for flights, guest for hotels,
    driver for car rentals, participant for activities).";
  model_fields := [
    attr "role" [py_str; py_None]
      (Field (DefaultValue PyNone)
         ("Role of the traveler (e.g., " +:+ ex "passenger" +:+ ", " +:+ ex "guest" +:+ ", " +:+ ex "driver" +:+ ", " +:+ ex "participant" +:+ ", " +:+ ex "reservation_holder" +:+ ")"));
    attr "ticket_number" [py_str; py_None]
      (Field (DefaultValue PyNone) "Ticket number if applicable")
  ]
|}.

Definition ConnectsTo : BaseModel := {|
  cls_name := "ConnectsTo";
  cls_doc := "A flight segment, rail segment, or transport segment connects to a
    subsequent segment, forming a multi-leg itinerary.";
  model_fields := [
    attr "connection_time" [py_str; py_None]
      (Field (DefaultValue PyNone) "Layover or connection time between segments");
    attr "connection_airport" [py_str; py_None]
      (Field (DefaultValue PyNone) "Connection airport or station code")
  ]
|}.

Definition MemberOf : BaseModel := {|
  cls_name := "MemberOf";
  cls_doc := "A traveler is a member of a loyalty or frequent traveler program.";
  model_fields := [
    attr "member_number" [py_str; py_None]
      (Field (DefaultValue PyNone) "Membership or account number");
    attr "elite_status" [py_str; py_None]
      (Field (DefaultValue PyNone) "Elite tier status")
  ]
|}.

Definition OfferedBy : BaseModel := {|
  cls_name := "OfferedBy";
  cls_doc := "A loyalty program is offered by an airline or transport provider.";
  model_fields := []
|}.

Definition DestinationOf : BaseModel := {|
  cls_name := "DestinationOf";
  cls_doc := "A city or location is the destination (or origin) of a trip.";
  model_fields := [
    attr "role" [py_str; py_None]
      (Field (DefaultValue PyNone)
         ("Whether this is an " +:+ ex "origin" +:+ " or " +:+ ex "destination" +:+ " of the trip"))
  ]
|}.

Definition PortOfCall : BaseModel := {|
  cls_name := "PortOfCall";
  cls_doc := "A cruise stops at a specific port city as part of its itinerary.";
  model_fields := [
    attr "arrival_date" [py_str; py_None]
      (Field (DefaultValue PyNone) "Arrival date at port");
    attr "departure_date" [py_str; py_None]
      (Field (DefaultValue PyNone) "Departure date from port")
  ]
|}.

Definition InvitedTo : BaseModel := {|
  cls_name := "InvitedTo";
  cls_doc := "A traveler has been invited to or is sharing a trip with another traveler.";
  model_fields := [
    attr "is_read_only" [py_bool; py_None]
      (Field (DefaultValue PyNone) "Whether the invitee has read-only access");
    attr "is_traveler" [py_bool; py_None]
      (Field (DefaultValue PyNone) "Whether the invitee is also traveling on this trip")
  ]
|}.

(** ** Configuration dictionaries *)

Definition ENTITY_TYPES_items : list (string * BaseModel) := [
  (* Travel reservations *)
  ("Trip", Trip);
  ("Flight", Flight);
  ("Lodging", Lodging);
  ("CarRental", CarRental);
  ("RailJourney", RailJourney);
  ("Cruise", Cruise);
  ("GroundTransport", GroundTransport);
  ("Restaurant", Restaurant);
  ("Activity", Activity);
  (* People *)
  ("Traveler", Traveler);
  (* Locations *)
  ("Airport", Airport);
  ("City", City);
  ("Venue", Venue);
  (* Organizations *)
  ("Airline", Airline);
  ("TransportProvider", TransportProvider);
  ("LoyaltyProgram", LoyaltyProgram)
].

Definition ENTITY_TYPES : gmap string BaseModel :=
  dict_literal ENTITY_TYPES_items.

Definition EDGE_TYPES_items : list (string * BaseModel) := [
  ("PART_OF_TRIP", PartOfTrip);
  ("DEPARTS_FROM", DepartsFrom);
  ("ARRIVES_AT", ArrivesAt);
  ("LOCATED_AT", LocatedAt);
  ("LOCATED_IN", LocatedIn);
  ("OPERATED_BY", OperatedBy);
  ("BOOKED_WITH", BookedWith);
  ("TRAVELER_ON", TravelerOn);
  ("CONNECTS_TO", ConnectsTo);
  ("MEMBER_OF", MemberOf);
  ("OFFERED_BY", OfferedBy);
  ("DESTINATION_OF", DestinationOf);
  ("PORT_OF_CALL", PortOfCall);
  ("INVITED_TO", InvitedTo)
].

Definition EDGE_TYPES : gmap string BaseModel :=
  dict_literal EDGE_TYPES_items.

Definition EDGE_TYPE_MAP_items : list ((string * string) * list string) := [
  (* -- Trip containment: reservations belong to trips -- *)
  (("Flight", "Trip"), ["PART_OF_TRIP"]);
  (("Lodging", "Trip"), ["PART_OF_TRIP"]);
  (("CarRental", "Trip"), ["PART_OF_TRIP"]);
  (("RailJourney", "Trip"), ["PART_OF_TRIP"]);
  (("Cruise", "Trip"), ["PART_OF_TRIP"]);
  (("GroundTransport", "Trip"), ["PART_OF_TRIP"]);
  (("Restaurant", "Trip"), ["PART_OF_TRIP"]);
  (("Activity", "Trip"), ["PART_OF_TRIP"]);
  (* -- Departure / arrival for transport types -- *)
  (("Flight", "Airport"), ["DEPARTS_FROM"; "ARRIVES_AT"]);
  (("RailJourney", "Venue"), ["DEPARTS_FROM"; "ARRIVES_AT"]);
  (("Cruise", "Venue"), ["DEPARTS_FROM"; "ARRIVES_AT"; "PORT_OF_CALL"]);
  (("GroundTransport", "Venue"), ["DEPARTS_FROM"; "ARRIVES_AT"]);
  (("CarRental", "Venue"), ["DEPARTS_FROM"; "ARRIVES_AT"]);
  (* -- Physical location -- *)
  (("Lodging", "Venue"), ["LOCATED_AT"]);
  (("Restaurant", "Venue"), ["LOCATED_AT"]);
  (("Activity", "Venue"), ["LOCATED_AT"]);
  (* -- Geographic containment -- *)
  (("Airport", "City"), ["LOCATED_IN"]);
  (("Venue", "City"), ["LOCATED_IN"]);
  (* -- Trip destinations -- *)
  (("Trip", "City"), ["DESTINATION_OF"]);
  (* -- Cruise port of call -- *)
  (("Cruise", "City"), ["PORT_OF_CALL"]);
  (* -- Operators / providers -- *)
  (("Flight", "Airline"), ["OPERATED_BY"]);
  (("RailJourney", "TransportProvider"), ["OPERATED_BY"]);
  (("Cruise", "TransportProvider"), ["OPERATED_BY"]);
  (("GroundTransport", "TransportProvider"), ["OPERATED_BY"]);
  (("CarRental", "TransportProvider"), ["OPERATED_BY"]);
  (* -- Booking provenance -- *)
  (("Flight", "Entity"), ["BOOKED_WITH"]);
  (("Lodging", "Entity"), ["BOOKED_WITH"]);
  (("CarRental", "Entity"), ["BOOKED_WITH"]);
  (("RailJourney", "Entity"), ["BOOKED_WITH"]);
  (("Cruise", "Entity"), ["BOOKED_WITH"]);
  (("GroundTransport", "Entity"), ["BOOKED_WITH"]);
  (("Restaurant", "Entity"), ["BOOKED_WITH"]);
  (("Activity", "Entity"), ["BOOKED_WITH"]);
  (* -- Traveler associations -- *)
  (("Traveler", "Flight"), ["TRAVELER_ON"]);
  (("Traveler", "Lodging"), ["TRAVELER_ON"]);
  (("Traveler", "CarRental"), ["TRAVELER_ON"]);
  (("Traveler", "RailJourney"), ["TRAVELER_ON"]);
  (("Traveler", "Cruise"), ["TRAVELER_ON"]);
  (("Traveler", "GroundTransport"), ["TRAVELER_ON"]);
  (("Traveler", "Restaurant"), ["TRAVELER_ON"]);
  (("Traveler", "Activity"), ["TRAVELER_ON"]);
  (("Traveler", "Trip"), ["INVITED_TO"]);
  (* -- Multi-segment connections -- *)
  (("Flight", "Flight"), ["CONNECTS_TO"]);
  (("RailJourney", "RailJourney"), ["CONNECTS_TO"]);
  (("GroundTransport", "GroundTransport"), ["CONNECTS_TO"]);
  (* -- Loyalty programs -- *)
  (("Traveler", "LoyaltyProgram"), ["MEMBER_OF"]);
  (("LoyaltyProgram", "Airline"), ["OFFERED_BY"]);
  (("LoyaltyProgram", "TransportProvider"), ["OFFERED_BY"])
].

Definition EDGE_TYPE_MAP : gmap (string * string) (list string) :=
  dict_literal EDGE_TYPE_MAP_items.

(** The groups under which the source lists the entity types, both in the
    class definitions and in the display of [ENTITY_TYPES]. *)
Definition travel_reservations : list string :=
  ["Trip"; "Flight"; "Lodging"; "CarRental"; "RailJourney"; "Cruise";
   "GroundTransport"; "Restaurant"; "Activity"].
Definition people : list string := ["Traveler"].
Definition locations : list string := ["Airport"; "City"; "Venue"].
Definition organizations : list string :=
  ["Airline"; "TransportProvider"; "LoyaltyProgram"].

(** ** Instantiating a model class *)

(** What pydantic does with the keyword arguments [data] of a call of the
    class, for the declarations this file makes: an attribute that is given
    is checked against its annotation, one that is not given takes its
    default, and an attribute with neither is reported missing.  Keys of
    [data] that name no attribute are ignored, as under pydantic's default
    configuration.  A value is accepted here when its type is a member of
    the annotation; pydantic's lax conversions accept more, never less. *)
Inductive ErrorType : Set := missing | invalid_type.

Definition is_required (a : Attribute) : bool :=
  match default (field_info a) with
  | PydanticUndefined => true
  | DefaultValue _ => false
  end.

Definition accepts (ann : list PyType) (v : Value) : bool :=
  bool_decide (type_of v ∈ ann).

Definition validate_attribute (data : gmap string Value) (a : Attribute)
    : Value + ErrorType :=
  match data !! attr_name a with
  | Some v => if accepts (annotation a) v then inl v else inr invalid_type
  | None =>
      match default (field_info a) with
      | DefaultValue v => inl v
      | PydanticUndefined => inr missing
      end
  end.

(** All attributes are validated and every error is collected. *)
Fixpoint validate_attributes (data : gmap string Value) (attrs : list Attribute)
    : list (string * Value) * list (string * ErrorType) :=
  match attrs with
  | [] => ([], [])
  | a :: attrs' =>
      let '(values, errors) := validate_attributes data attrs' in
      match validate_attribute data a with
      | inl v => ((attr_name a, v) :: values, errors)
      | inr e => (values, (attr_name a, e) :: errors)
      end
  end.

(** The instance's attribute values, or the [ValidationError]'s errors. *)
Definition model_validate (cls : BaseModel) (data : gmap string Value)
    : list (string * Value) + list (string * ErrorType) :=
  let '(values, errors) := validate_attributes data (model_fields cls) in
  match errors with
  | [] => inl values
  | _ :: _ => inr errors
  end.

(** The instance in which no attribute was set. *)
Definition unset_instance (cls : BaseModel) : list (string * Value) :=
  (λ a, (attr_name a, PyNone)) <$> model_fields cls.

(** The value an attribute with default [None] has in an instance built
    from [data]: the one given, or [None]. *)
Definition given_or_None (data : gmap string Value) (a : Attribute)
    : string * Value :=
  (attr_name a,
   match data !! attr_name a with Some v => v | None => PyNone end).

(** An attribute declared [T | None = Field(None, ...)] with [T] one of
    [str], [bool] and [float]. *)
Definition optional_scalar (a : Attribute) : Prop :=
  default (field_info a) = DefaultValue PyNone ∧
  annotation a ∈ [[py_str; py_None]; [py_bool; py_None]; [py_float; py_None]].

#[global] Instance optional_scalar_dec a : Decision (optional_scalar a).
Proof. unfold optional_scalar. apply _. Defined.

(** ** Vocabulary for the tables *)

#[global] Instance FieldInfo_eq_dec : EqDecision FieldInfo.
Proof. solve_decision. Defined.

#[global] Instance Attribute_eq_dec : EqDecision Attribute.
Proof. solve_decision. Defined.

#[global] Instance BaseModel_eq_dec : EqDecision BaseModel.
Proof. solve_decision. Defined.

(** [cls] is the class stored under [name] in one of the two type tables. *)
Definition declared (name : string) (cls : BaseModel) : Prop :=
  ENTITY_TYPES !! name = Some cls ∨ EDGE_TYPES !! name = Some cls.

(** The items of both type tables, entity types first. *)
Definition declared_items : list (string * BaseModel) :=
  (ENTITY_TYPES_items ++ EDGE_TYPES_items)%list.

(** The names of the attributes a class declares, in order. *)
Definition attribute_names (cls : BaseModel) : list string :=
  attr_name <$> model_fields cls.

(** [r in EDGE_TYPE_MAP.get((s, t), [])]: the map lists relationship type
    [r] for the ordered pair of entity types [(s, t)]. *)
Definition permits (s t r : string) : Prop :=
  ∃ l, EDGE_TYPE_MAP !! (s, t) = Some l ∧ r ∈ l.

#[global] Instance permits_dec s t r : Decision (permits s t r).
Proof.
  unfold permits. destruct (EDGE_TYPE_MAP !! (s, t)) as [l|].
  - destruct (decide (r ∈ l)) as [Hr | Hr].
    + left. by exists l.
    + right. intros (l' & [= <-] & Hr'). by apply Hr.
  - right. by intros (l' & [=] & _).
Defined.

(** [(s, t)] is a key of the map that joins two different types. *)
Definition links (s t : string) : Prop :=
  s ≠ t ∧ is_Some (EDGE_TYPE_MAP !! (s, t)).

(** A layering of the entity-type names: travellers above reservations,
    reservations above the trip, the places they use and the loyalty
    programs, and those above cities, operators and the wildcard. *)
Definition layer (e : string) : nat :=
  if bool_decide (e = "Traveler") then 3
  else if bool_decide (e ∈ travel_reservations ∧ e ≠ "Trip") then 2
  else if bool_decide (e ∈ ["Trip"; "Airport"; "Venue"; "LoyaltyProgram"]) then 1
  else 0.

(** Upper snake case of a camel-case identifier: [PartOfTrip] becomes
    [PART_OF_TRIP]; 95 is the code of the underscore. *)
Definition is_upper (c : Ascii.ascii) : bool :=
  let n := Ascii.nat_of_ascii c in Nat.leb 65 n && Nat.leb n 90.

Definition to_upper (c : Ascii.ascii) : Ascii.ascii :=
  let n := Ascii.nat_of_ascii c in
  if Nat.leb 97 n && Nat.leb n 122 then Ascii.ascii_of_nat (n - 32) else c.

Fixpoint upper_snake_rest (s : string) : string :=
  match s with
  | EmptyString => EmptyString
  | String c s' =>
      if is_upper c
      then String (Ascii.ascii_of_nat 95) (String c (upper_snake_rest s'))
      else String (to_upper c) (upper_snake_rest s')
  end.

Definition upper_snake (s : string) : string :=
  match s with
  | EmptyString => EmptyString
  | String c s' => String (to_upper c) (upper_snake_rest s')
  end.

(** * Properties *)

(** ** Dictionary displays *)

Section dict_literal.
Context {K V : Type} `{Countable K}.
Implicit Types (items : list (K * V)) (k : K) (v : V).

Lemma dict_literal_snoc items k v :
  dict_literal (items ++ [(k, v)]) = <[k := v]> (dict_literal items).
Proof. unfold dict_literal. by rewrite foldl_snoc. Qed.

(** A repeated key keeps the value of its last item. *)
Example dict_literal_last_wins :
  dict_literal [("a", 1); ("b", 2); ("a", 3)] !! "a" = Some 3.
Proof. vm_compute. reflexivity. Qed.

(** Storing left to right is [list_to_map] on the reversed display. *)
Lemma dict_literal_reverse items :
  dict_literal items = list_to_map (reverse items).
Proof.
  induction items as [|[k v] items IH] using rev_ind; [done|].
  by rewrite dict_literal_snoc, reverse_snoc, list_to_map_cons, IH.
Qed.

Lemma dict_literal_lookup_Some items k v :
  dict_literal items !! k = Some v → (k, v) ∈ items.
Proof.
  rewrite dict_literal_reverse. intros Hk.
  by apply elem_of_reverse, elem_of_list_to_map_2.
Qed.

Lemma NoDup_fst_reverse items : NoDup items.*1 → NoDup (reverse items).*1.
Proof. intros Hnd. by rewrite fmap_reverse, reverse_Permutation. Qed.

Lemma dict_literal_lookup_NoDup items k v :
  NoDup items.*1 → (k, v) ∈ items → dict_literal items !! k = Some v.
Proof.
  intros Hnd Hin. rewrite dict_literal_reverse.
  apply elem_of_list_to_map_1; [by apply NoDup_fst_reverse|].
  by apply elem_of_reverse.
Qed.

Lemma dict_literal_lookup_None items k :
  dict_literal items !! k = None ↔ k ∉ items.*1.
Proof.
  rewrite dict_literal_reverse, <- not_elem_of_list_to_map.
  by rewrite fmap_reverse, elem_of_reverse.
Qed.

Lemma dict_literal_is_Some items k :
  is_Some (dict_literal items !! k) ↔ k ∈ items.*1.
Proof.
  rewrite <- not_eq_None_Some, dict_literal_lookup_None.
  split; [apply dec_stable | by intros ? ?].
Qed.

Lemma dict_literal_dom items :
  dom (dict_literal items) = list_to_set items.*1.
Proof.
  apply set_eq. intros k.
  by rewrite elem_of_dom, dict_literal_is_Some, elem_of_list_to_set.
Qed.

Lemma dict_literal_size items :
  NoDup items.*1 → size (dict_literal items) = length items.
Proof.
  intros Hnd. rewrite dict_literal_reverse.
  rewrite map_size_list_to_map by by apply NoDup_fst_reverse.
  apply length_reverse.
Qed.

(** A property of every item of the display holds of every entry. *)
Lemma dict_literal_Forall (P : K → V → Prop) items :
  Forall (λ kv, P kv.1 kv.2) items → map_Forall P (dict_literal items).
Proof.
  intros Hall k v Hk%dict_literal_lookup_Some.
  by apply (proj1 (Forall_forall _ _) Hall (k, v)).
Qed.

(** Without repeated keys, an item with a property is an entry with it. *)
Lemma dict_literal_Exists (P : K → V → Prop) items :
  NoDup items.*1 → Exists (λ kv, P kv.1 kv.2) items →
  ∃ k v, dict_literal items !! k = Some v ∧ P k v.
Proof.
  intros Hnd ([k v] & Hin & HP)%Exists_exists.
  exists k, v. split; [by apply dict_literal_lookup_NoDup | done].
Qed.
End dict_literal.

(** ** The displays of the three tables *)

(** Closes a goal [map_Forall P (dict_literal items)] with decidable [P] by
    checking [P] on each item of the display. *)
Ltac by_display :=
  apply dict_literal_Forall; apply (bool_decide_unpack _); by vm_compute.

(** Closes a decidable closed goal by evaluation. *)
Ltac by_eval := apply (bool_decide_unpack _); by vm_compute.

Lemma ENTITY_TYPES_NoDup : NoDup ENTITY_TYPES_items.*1.
Proof. by_eval. Qed.

Lemma EDGE_TYPES_NoDup : NoDup EDGE_TYPES_items.*1.
Proof. by_eval. Qed.

Lemma EDGE_TYPE_MAP_NoDup : NoDup EDGE_TYPE_MAP_items.*1.
Proof. by_eval. Qed.

Lemma ENTITY_TYPES_keys e : e ∈ dom ENTITY_TYPES ↔ e ∈ ENTITY_TYPES_items.*1.
Proof.
  unfold ENTITY_TYPES. by rewrite dict_literal_dom, elem_of_list_to_set.
Qed.

Lemma EDGE_TYPES_keys r : r ∈ dom EDGE_TYPES ↔ r ∈ EDGE_TYPES_items.*1.
Proof.
  unfold EDGE_TYPES. by rewrite dict_literal_dom, elem_of_list_to_set.
Qed.

Lemma EDGE_TYPE_MAP_lookup k l :
  EDGE_TYPE_MAP !! k = Some l ↔ (k, l) ∈ EDGE_TYPE_MAP_items.
Proof.
  split; [apply dict_literal_lookup_Some|].
  apply dict_literal_lookup_NoDup, EDGE_TYPE_MAP_NoDup.
Qed.

(** [dq] is the one character with code 34, so [ex] wraps its argument in
    double quotes. *)
Example dq_code : Ascii.nat_of_ascii <$> String.list_ascii_of_string dq = [34].
Proof. reflexivity. Qed.

Example ex_length : String.length (ex "SFO") = 5.
Proof. reflexivity. Qed.

(** The display of [ENTITY_TYPES] lists the four groups one after another. *)
Lemma ENTITY_TYPES_groups :
  ENTITY_TYPES_items.*1 =
    (travel_reservations ++ people ++ locations ++ organizations)%list.
Proof. reflexivity. Qed.

Lemma ENTITY_TYPES_size : size ENTITY_TYPES = 16.
Proof. unfold ENTITY_TYPES. by rewrite dict_literal_size by apply ENTITY_TYPES_NoDup. Qed.

Lemma EDGE_TYPES_size : size EDGE_TYPES = 14.
Proof. unfold EDGE_TYPES. by rewrite dict_literal_size by apply EDGE_TYPES_NoDup. Qed.

(** ** Referential integrity of the edge type map *)

(** C1: every value list of [EDGE_TYPE_MAP] is non-empty, and every
    relationship-type name in it is a key of [EDGE_TYPES]. *)
Theorem edge_type_map_values_declared (s t : string) (l : list string) :
  EDGE_TYPE_MAP !! (s, t) = Some l →
  l ≠ [] ∧ ∀ r, r ∈ l → r ∈ dom EDGE_TYPES.
Proof.
  revert l. generalize (s, t). clear s t.
  change (map_Forall (λ (k : string * string) (l : list string),
            l ≠ [] ∧ ∀ r, r ∈ l → r ∈ dom EDGE_TYPES) EDGE_TYPE_MAP).
  eapply map_Forall_impl.
  - instantiate (1 := λ _ l,
      l ≠ [] ∧ Forall (λ r, r ∈ EDGE_TYPES_items.*1) l). by_display.
  - intros k l [Hne Hall]. split; [done|]. intros r Hr.
    apply EDGE_TYPES_keys. by apply (proj1 (Forall_forall _ _) Hall).
Qed.

Lemma edge_type_map_values_declared_witness : "ARRIVES_AT" ∈ dom EDGE_TYPES.
Proof.
  refine (proj2 (edge_type_map_values_declared "Flight" "Airport"
                   ["DEPARTS_FROM"; "ARRIVES_AT"] _) "ARRIVES_AT" _).
  - vm_compute. reflexivity.
  - apply list_elem_of_In. simpl. tauto.
Defined.

(** C2: each element of a key of [EDGE_TYPE_MAP] is a key of
    [ENTITY_TYPES], the literal ["Entity"] being the one exception. *)
Theorem edge_type_map_keys_declared (s t x : string) :
  is_Some (EDGE_TYPE_MAP !! (s, t)) →
  x = s ∨ x = t →
  x ∈ dom ENTITY_TYPES ↔ x ≠ "Entity".
Proof.
  intros [l Hl] Hx.
  assert (map_Forall (λ (k : string * string) (_ : list string),
            Forall (λ x, x ∈ ENTITY_TYPES_items.*1 ↔ x ≠ "Entity") [k.1; k.2])
            EDGE_TYPE_MAP) as Hall by by_display.
  specialize (Hall _ _ Hl). cbn [fst snd] in Hall.
  rewrite ENTITY_TYPES_keys.
  apply (proj1 (Forall_forall _ _) Hall).
  destruct Hx as [-> | ->]; [left | right; left].
Qed.

Lemma edge_type_map_keys_declared_witness :
  "Airport" ∈ dom ENTITY_TYPES ↔ "Airport" ≠ "Entity".
Proof.
  apply (edge_type_map_keys_declared "Flight" "Airport" "Airport").
  - exists ["DEPARTS_FROM"; "ARRIVES_AT"]. vm_compute. reflexivity.
  - right. reflexivity.
Defined.

(** The exception does occur: ["Entity"] is the target of a key. *)
Lemma Entity_is_a_target :
  EDGE_TYPE_MAP !! ("Flight", "Entity") = Some ["BOOKED_WITH"].
Proof. vm_compute. reflexivity. Qed.

(** ** Contents of the tables *)

(** C3: [ENTITY_TYPES] has exactly 16 entries, its keys are the sixteen
    entity-type names, and [EDGE_TYPES] has exactly 14 entries. *)
Theorem table_sizes :
  size ENTITY_TYPES = 16 ∧
  dom ENTITY_TYPES =
    {[ "Trip"; "Flight"; "Lodging"; "CarRental"; "RailJourney"; "Cruise";
       "GroundTransport"; "Restaurant"; "Activity"; "Traveler"; "Airport";
       "City"; "Venue"; "Airline"; "TransportProvider"; "LoyaltyProgram" ]} ∧
  size EDGE_TYPES = 14.
Proof.
  split; [apply ENTITY_TYPES_size|]. split; [|apply EDGE_TYPES_size].
  unfold ENTITY_TYPES. rewrite dict_literal_dom. by_eval.
Qed.

(** C4: the lookups the specification gives as examples. *)
Theorem edge_type_map_examples :
  EDGE_TYPE_MAP !! ("Flight", "Trip") = Some ["PART_OF_TRIP"] ∧
  EDGE_TYPE_MAP !! ("Flight", "Airport") = Some ["DEPARTS_FROM"; "ARRIVES_AT"] ∧
  EDGE_TYPE_MAP !! ("Cruise", "Venue") =
    Some ["DEPARTS_FROM"; "ARRIVES_AT"; "PORT_OF_CALL"] ∧
  EDGE_TYPE_MAP !! ("Traveler", "Trip") = Some ["INVITED_TO"] ∧
  EDGE_TYPE_MAP !! ("Traveler", "Flight") = Some ["TRAVELER_ON"] ∧
  EDGE_TYPE_MAP !! ("Traveler", "Trip") ≠ EDGE_TYPE_MAP !! ("Traveler", "Flight").
Proof.
  repeat split; try (vm_compute; reflexivity).
  vm_compute. discriminate.
Qed.

(** ** Construction policy of the edge type map *)

(** Splits a membership [H : x ∈ [a; b; ...]] in a concrete list into one
    goal per element. *)
Ltac list_cases H :=
  repeat (apply elem_of_cons in H as [-> | H]); [.. | by apply elem_of_nil in H].

(** C5, as stated, fails: ["Trip"] is listed among the travel reservations,
    and [EDGE_TYPE_MAP] has no key [("Trip", "Trip")]. *)
Lemma part_of_trip_fails_for_Trip :
  ¬ (∀ T : string, T ∈ travel_reservations →
       ∃ l, EDGE_TYPE_MAP !! (T, "Trip") = Some l ∧ "PART_OF_TRIP" ∈ l).
Proof.
  intros Hall. destruct (Hall "Trip") as (l & Hl & _); [by left|].
  vm_compute in Hl. discriminate.
Qed.

(** C5, amended: every travel reservation type other than ["Trip"] itself
    has the key [(T, "Trip")] in [EDGE_TYPE_MAP], with ["PART_OF_TRIP"] in
    its value list; [("Trip", "Trip")] is not a key. *)
Theorem part_of_trip_containment :
  (∀ T : string, T ∈ travel_reservations → T ≠ "Trip" →
     ∃ l, EDGE_TYPE_MAP !! (T, "Trip") = Some l ∧ "PART_OF_TRIP" ∈ l) ∧
  EDGE_TYPE_MAP !! ("Trip", "Trip") = None.
Proof.
  split; [|vm_compute; reflexivity].
  intros T HT Hne. unfold travel_reservations in HT.
  list_cases HT; try done;
    (exists ["PART_OF_TRIP"]; split; [vm_compute; reflexivity | left]).
Qed.

Lemma part_of_trip_containment_witness :
  ∃ l, EDGE_TYPE_MAP !! ("Cruise", "Trip") = Some l ∧ "PART_OF_TRIP" ∈ l.
Proof.
  apply (proj1 part_of_trip_containment "Cruise").
  - by_eval.
  - discriminate.
Defined.

(** C6: in [EDGE_TYPE_MAP], ["CONNECTS_TO"] is in the value list of a key
    exactly when the key pairs a type with itself, and the keys with such a
    value are the three pairs for Flight, RailJourney and GroundTransport. *)
Theorem connects_to_same_type :
  (∀ (s t : string) (l : list string),
     EDGE_TYPE_MAP !! (s, t) = Some l → "CONNECTS_TO" ∈ l ↔ s = t) ∧
  (∀ k : string * string,
     (∃ l, EDGE_TYPE_MAP !! k = Some l ∧ "CONNECTS_TO" ∈ l) ↔
     k ∈ [("Flight", "Flight"); ("RailJourney", "RailJourney");
          ("GroundTransport", "GroundTransport")]).
Proof.
  split.
  - intros s t l Hl.
    assert (map_Forall (λ (k : string * string) (l : list string),
              "CONNECTS_TO" ∈ l ↔ k.1 = k.2) EDGE_TYPE_MAP) as Hall
      by by_display.
    apply (Hall _ _ Hl).
  - intros k. split.
    + intros (l & Hl & Hin). revert Hin.
      assert (map_Forall (λ (k : string * string) (l : list string),
                "CONNECTS_TO" ∈ l →
                k ∈ [("Flight", "Flight"); ("RailJourney", "RailJourney");
                     ("GroundTransport", "GroundTransport")])
                EDGE_TYPE_MAP) as Hall by by_display.
      apply (Hall _ _ Hl).
    + intros Hk. list_cases Hk;
        (exists ["CONNECTS_TO"]; split; [vm_compute; reflexivity | left]).
Qed.

Lemma connects_to_same_type_witness :
  "CONNECTS_TO" ∈ ["CONNECTS_TO"] ↔ "RailJourney" = "RailJourney".
Proof.
  apply (proj1 connects_to_same_type "RailJourney" "RailJourney").
  vm_compute. reflexivity.
Defined.

(** C7, as stated, fails: ["Trip"] is listed among the travel reservations,
    and [EDGE_TYPE_MAP] has no key [("Trip", "Entity")]. *)
Lemma booked_with_fails_for_Trip :
  ¬ ((∀ T : string, T ∈ travel_reservations →
        ∃ l, EDGE_TYPE_MAP !! (T, "Entity") = Some l ∧ "BOOKED_WITH" ∈ l) ∧
     (∀ s t : string, is_Some (EDGE_TYPE_MAP !! (s, t)) → s ≠ "Entity")).
Proof.
  intros [Hall _]. destruct (Hall "Trip") as (l & Hl & _); [by left|].
  vm_compute in Hl. discriminate.
Qed.

(** C7, amended: every travel reservation type other than ["Trip"] itself
    has the key [(T, "Entity")] in [EDGE_TYPE_MAP], with ["BOOKED_WITH"] in
    its value list; [("Trip", "Entity")] is not a key; and ["Entity"] is
    never the source element of a key. *)
Theorem booked_with_provenance :
  (∀ T : string, T ∈ travel_reservations → T ≠ "Trip" →
     ∃ l, EDGE_TYPE_MAP !! (T, "Entity") = Some l ∧ "BOOKED_WITH" ∈ l) ∧
  EDGE_TYPE_MAP !! ("Trip", "Entity") = None ∧
  (∀ s t : string, is_Some (EDGE_TYPE_MAP !! (s, t)) → s ≠ "Entity").
Proof.
  split; [|split; [vm_compute; reflexivity|]].
  - intros T HT Hne. unfold travel_reservations in HT.
    list_cases HT; try done;
      (exists ["BOOKED_WITH"]; split; [vm_compute; reflexivity | left]).
  - intros s t [l Hl].
    assert (map_Forall (λ (k : string * string) (_ : list string),
              k.1 ≠ "Entity") EDGE_TYPE_MAP) as Hall by by_display.
    apply (Hall _ _ Hl).
Qed.

Lemma booked_with_provenance_witness :
  ∃ l, EDGE_TYPE_MAP !! ("Lodging", "Entity") = Some l ∧ "BOOKED_WITH" ∈ l.
Proof.
  apply (proj1 booked_with_provenance "Lodging").
  - by_eval.
  - discriminate.
Defined.

(** ** Coverage of the declared types *)

(** C9: each of the 14 keys of [EDGE_TYPES] occurs in the value list of
    some entry of [EDGE_TYPE_MAP]. *)
Theorem edge_types_all_used :
  size EDGE_TYPES = 14 ∧
  ∀ r : string, r ∈ dom EDGE_TYPES →
    ∃ (k : string * string) (l : list string),
      EDGE_TYPE_MAP !! k = Some l ∧ r ∈ l.
Proof.
  split; [apply EDGE_TYPES_size|].
  intros r Hr%EDGE_TYPES_keys.
  apply (dict_literal_Exists (λ _ l, r ∈ l)); [apply EDGE_TYPE_MAP_NoDup|].
  revert r Hr. apply Forall_forall. by_eval.
Qed.

Lemma edge_types_all_used_witness :
  ∃ (k : string * string) (l : list string),
    EDGE_TYPE_MAP !! k = Some l ∧ "PORT_OF_CALL" ∈ l.
Proof.
  apply (proj2 edge_types_all_used "PORT_OF_CALL").
  apply EDGE_TYPES_keys. by_eval.
Defined.

(** C10: each of the 16 keys of [ENTITY_TYPES] is the source or the target
    element of some key of [EDGE_TYPE_MAP]. *)
Theorem entity_types_all_used :
  size ENTITY_TYPES = 16 ∧
  ∀ e : string, e ∈ dom ENTITY_TYPES →
    ∃ s t : string, is_Some (EDGE_TYPE_MAP !! (s, t)) ∧ (e = s ∨ e = t).
Proof.
  split; [apply ENTITY_TYPES_size|].
  intros e He%ENTITY_TYPES_keys.
  destruct (dict_literal_Exists
              (λ (k : string * string) (_ : list string), e = k.1 ∨ e = k.2)
              EDGE_TYPE_MAP_items EDGE_TYPE_MAP_NoDup)
    as ([s t] & l & Hl & Hst).
  - revert e He. apply Forall_forall. by_eval.
  - exists s, t. split; [by exists l | done].
Qed.

Lemma entity_types_all_used_witness :
  ∃ s t : string,
    is_Some (EDGE_TYPE_MAP !! (s, t)) ∧ ("Airline" = s ∨ "Airline" = t).
Proof.
  apply (proj2 entity_types_all_used "Airline").
  apply ENTITY_TYPES_keys. by_eval.
Defined.

(** ** Optional attributes *)

Section model_validate.
Implicit Types (data : gmap string Value) (attrs : list Attribute).

Lemma optional_scalar_not_required a : optional_scalar a → is_required a = false.
Proof. intros [Hd _]. unfold is_required. by rewrite Hd. Qed.

Lemma optional_scalar_accepts_None a :
  optional_scalar a → accepts (annotation a) PyNone = true.
Proof.
  intros [_ Hann]. unfold accepts. apply bool_decide_eq_true.
  list_cases Hann; cbn; right; left.
Qed.

(** When every attribute defaults to [None] and the given values are
    accepted, validation reports no error. *)
Lemma validate_attributes_optional data attrs :
  Forall optional_scalar attrs →
  (∀ a v, a ∈ attrs → data !! attr_name a = Some v →
          accepts (annotation a) v = true) →
  validate_attributes data attrs = (given_or_None data <$> attrs, []).
Proof.
  induction attrs as [|a attrs IH]; intros Hopt Hacc; [done|].
  apply Forall_cons in Hopt as [[Hd _] Hopt].
  cbn [validate_attributes]. rewrite IH; [|done|].
  - unfold validate_attribute, given_or_None. cbn [fmap list_fmap].
    destruct (data !! attr_name a) as [v|] eqn:Hv.
    + by rewrite (Hacc a v) by (done || left).
    + by rewrite Hd.
  - intros a' v Ha'. apply Hacc. by right.
Qed.

Lemma model_validate_optional cls data :
  Forall optional_scalar (model_fields cls) →
  (∀ a v, a ∈ model_fields cls → data !! attr_name a = Some v →
          accepts (annotation a) v = true) →
  model_validate cls data = inl (given_or_None data <$> model_fields cls).
Proof.
  intros Hopt Hacc. unfold model_validate.
  by rewrite validate_attributes_optional.
Qed.

Lemma model_validate_unset cls :
  Forall optional_scalar (model_fields cls) →
  model_validate cls ∅ = inl (unset_instance cls).
Proof.
  intros Hopt. rewrite (model_validate_optional cls ∅ Hopt).
  - reflexivity.
  - intros a v _. by rewrite lookup_empty.
Qed.
End model_validate.

Lemma ENTITY_TYPES_optional :
  map_Forall (λ _ cls, Forall optional_scalar (model_fields cls)) ENTITY_TYPES.
Proof. by_display. Qed.

Lemma EDGE_TYPES_optional :
  map_Forall (λ _ cls, Forall optional_scalar (model_fields cls)) EDGE_TYPES.
Proof. by_display. Qed.

(** C8: in every class of [ENTITY_TYPES] and [EDGE_TYPES], each attribute
    is declared [str | None], [bool | None] or [float | None] with default
    [None]; so the instance with no attribute set is valid, and so is any
    instance that sets some attributes to values of their type and leaves
    the others out. *)
Theorem attributes_all_optional (name : string) (cls : BaseModel) :
  ENTITY_TYPES !! name = Some cls ∨ EDGE_TYPES !! name = Some cls →
  (∀ a, a ∈ model_fields cls →
     is_required a = false ∧
     default (field_info a) = DefaultValue PyNone ∧
     annotation a ∈
       [[py_str; py_None]; [py_bool; py_None]; [py_float; py_None]]) ∧
  model_validate cls ∅ = inl (unset_instance cls) ∧
  (∀ data : gmap string Value,
     (∀ a v, a ∈ model_fields cls → data !! attr_name a = Some v →
             accepts (annotation a) v = true) →
     model_validate cls data = inl (given_or_None data <$> model_fields cls)).
Proof.
  intros Hcls.
  assert (Forall optional_scalar (model_fields cls)) as Hopt.
  { destruct Hcls as [Hcls | Hcls].
    - apply (ENTITY_TYPES_optional _ _ Hcls).
    - apply (EDGE_TYPES_optional _ _ Hcls). }
  split; [|split].
  - intros a Ha. pose proof (proj1 (Forall_forall _ _) Hopt a Ha) as Ho.
    split; [by apply optional_scalar_not_required | exact Ho].
  - by apply model_validate_unset.
  - intros data Hacc. by apply model_validate_optional.
Qed.

Lemma attributes_all_optional_witness :
  model_validate InvitedTo ∅ =
    inl [("is_read_only", PyNone); ("is_traveler", PyNone)].
Proof.
  refine (proj1 (proj2 (attributes_all_optional "INVITED_TO" InvitedTo _))).
  right. vm_compute. reflexivity.
Defined.

(** Setting one attribute of a [Trip] and leaving the other three out. *)
Example Trip_destination_only :
  model_validate Trip {[ "destination" := PyStr "Lisbon" ]} =
    inl [("start_date", PyNone); ("end_date", PyNone);
         ("destination", PyStr "Lisbon"); ("is_private", PyNone)].
Proof. vm_compute. reflexivity. Qed.

(** A value of the wrong type is refused, so validation is not vacuous. *)
Example Trip_destination_not_an_int :
  model_validate Trip {[ "destination" := PyInt 7 ]} =
    inr [("destination", invalid_type)].
Proof. vm_compute. reflexivity. Qed.

(** An attribute without a default would be required. *)
Example required_attribute_missing :
  model_validate
    {| cls_name := "Strict"; cls_doc := EmptyString;
       model_fields :=
         [attr "code" [py_str] (Field PydanticUndefined EmptyString)] |}
    ∅ = inr [("code", missing)].
Proof. vm_compute. reflexivity. Qed.

(** * Further properties of the tables *)

(** ** Every item of a display is an entry *)

Lemma declared_in_items n cls : declared n cls ↔ (n, cls) ∈ declared_items.
Proof.
  unfold declared, declared_items, ENTITY_TYPES, EDGE_TYPES.
  rewrite elem_of_app. split.
  - intros [H | H]; [left | right]; by apply dict_literal_lookup_Some.
  - intros [H | H]; [left | right]; apply dict_literal_lookup_NoDup;
      (done || apply ENTITY_TYPES_NoDup || apply EDGE_TYPES_NoDup).
Qed.

(** A property of every item of the two type tables holds of every
    declared class. *)
Lemma declared_Forall (P : string → BaseModel → Prop) :
  Forall (λ kc, P kc.1 kc.2) declared_items → ∀ n cls, declared n cls → P n cls.
Proof.
  intros Hall n cls Hd%declared_in_items.
  apply (proj1 (Forall_forall _ _) Hall (n, cls) Hd).
Qed.

Ltac by_declared := apply declared_Forall; apply (bool_decide_unpack _); by vm_compute.



(** ** Names *)

(** X2: an entity type is stored under the name of its class, and no two
    keys of the two type tables hold classes of the same name. *)
Theorem table_keys_name_classes :
  (∀ n cls, ENTITY_TYPES !! n = Some cls → cls_name cls = n) ∧
  (∀ n1 c1 n2 c2, declared n1 c1 → declared n2 c2 →
     cls_name c1 = cls_name c2 → n1 = n2).
Proof.
  split.
  - change (map_Forall (λ n cls, cls_name cls = n) ENTITY_TYPES). by_display.
  - intros n1 c1 n2 c2 H1 H2. revert n2 c2 H2. revert n1 c1 H1.
    refine (declared_Forall
      (λ n1 c1, ∀ n2 c2, declared n2 c2 → cls_name c1 = cls_name c2 → n1 = n2) _).
    eapply Forall_impl.
    + instantiate (1 := λ kc1, Forall (λ kc2,
        cls_name kc1.2 = cls_name kc2.2 → kc1.1 = kc2.1) declared_items).
      by_eval.
    + intros [n1 c1] Hall n2 c2 H2%declared_in_items.
      apply (proj1 (Forall_forall _ _) Hall (n2, c2) H2).
Qed.

Lemma table_keys_name_classes_witness : cls_name GroundTransport = "GroundTransport".
Proof.
  apply (proj1 table_keys_name_classes "GroundTransport" GroundTransport).
  vm_compute. reflexivity.
Defined.

(** X3: a relationship type is stored under its class's name written in
    upper snake case. *)
Theorem edge_type_keys_upper_snake (n : string) (cls : BaseModel) :
  EDGE_TYPES !! n = Some cls → n = upper_snake (cls_name cls).
Proof.
  revert n cls.
  change (map_Forall (λ n cls, n = upper_snake (cls_name cls)) EDGE_TYPES).
  by_display.
Qed.

Lemma edge_type_keys_upper_snake_witness :
  "PORT_OF_CALL" = upper_snake (cls_name PortOfCall).
Proof.
  apply (edge_type_keys_upper_snake "PORT_OF_CALL" PortOfCall).
  vm_compute. reflexivity.
Defined.

(** ** Attributes of the declared classes *)

(** A property of every attribute of every item of the two type tables
    holds of every attribute of every declared class. *)
Lemma declared_attr_Forall (P : Attribute → Prop) :
  Forall (λ kc, Forall P (model_fields kc.2)) declared_items →
  ∀ n cls a, declared n cls → a ∈ model_fields cls → P a.
Proof.
  intros Hall n cls a Hd%declared_in_items Ha.
  pose proof (proj1 (Forall_forall _ _) Hall (n, cls) Hd) as Hcls.
  apply (proj1 (Forall_forall _ _) Hcls a Ha).
Qed.

(** X4: within each declared class the attribute names are pairwise
    distinct, so no attribute declaration replaces an earlier one. *)
Theorem attribute_names_distinct (n : string) (cls : BaseModel) :
  declared n cls → NoDup (attribute_names cls).
Proof. revert n cls. by_declared. Qed.

Lemma attribute_names_distinct_witness : NoDup (attribute_names Flight).
Proof.
  apply (attribute_names_distinct "Flight" Flight).
  left. vm_compute. reflexivity.
Defined.

(** X5: every declared class has a docstring and every attribute a
    description, none of them empty. *)
Theorem classes_and_attributes_documented (n : string) (cls : BaseModel) :
  declared n cls →
  cls_doc cls ≠ EmptyString ∧
  ∀ a, a ∈ model_fields cls → description (field_info a) ≠ EmptyString.
Proof.
  intros Hd. split.
  - revert n cls Hd. by_declared.
  - intros a Ha. revert n cls a Hd Ha. apply declared_attr_Forall. by_eval.
Qed.

Lemma classes_and_attributes_documented_witness :
  cls_doc OfferedBy ≠ EmptyString.
Proof.
  apply (classes_and_attributes_documented "OFFERED_BY" OfferedBy).
  right. vm_compute. reflexivity.
Defined.

(** X6: an attribute name has one annotation throughout: two attributes of
    the same name, in any two declared classes, are annotated alike. *)
Theorem same_name_same_annotation
    (n1 n2 : string) (c1 c2 : BaseModel) (a1 a2 : Attribute) :
  declared n1 c1 → declared n2 c2 →
  a1 ∈ model_fields c1 → a2 ∈ model_fields c2 →
  attr_name a1 = attr_name a2 → annotation a1 = annotation a2.
Proof.
  intros Hd1 Hd2 Ha1 Ha2.
  assert (Forall (λ kc1, Forall (λ a1, Forall (λ kc2, Forall (λ a2,
            attr_name a1 = attr_name a2 → annotation a1 = annotation a2)
            (model_fields kc2.2)) declared_items)
            (model_fields kc1.2)) declared_items) as Hall by by_eval.
  pose proof (declared_attr_Forall _ Hall n1 c1 a1 Hd1 Ha1) as Hall2.
  apply (declared_attr_Forall _ Hall2 n2 c2 a2 Hd2 Ha2).
Qed.

Lemma same_name_same_annotation_witness :
  annotation (attr "elite_status" [py_str; py_None]
                (Field (DefaultValue PyNone)
                   ("Elite tier status (e.g., " +:+ ex "Gold" +:+ ", " +:+ ex "Platinum" +:+ ")"))) =
  annotation (attr "elite_status" [py_str; py_None]
                (Field (DefaultValue PyNone) "Elite tier status")).
Proof.
  apply (same_name_same_annotation "LoyaltyProgram" "MEMBER_OF"
           LoyaltyProgram MemberOf).
  - left. vm_compute. reflexivity.
  - right. vm_compute. reflexivity.
  - by_eval.
  - by_eval.
  - reflexivity.
Defined.

(** X7: the names tell the types: an attribute is a [bool | None] exactly
    when its name starts with [is_], a [float | None] exactly when it is a
    latitude or a longitude, and a [str | None] otherwise. *)
Theorem attribute_names_tell_types (n : string) (cls : BaseModel) (a : Attribute) :
  declared n cls → a ∈ model_fields cls →
  annotation a =
    if String.prefix "is_" (attr_name a) then [py_bool; py_None]
    else if bool_decide (attr_name a ∈ ["latitude"; "longitude"])
         then [py_float; py_None]
         else [py_str; py_None].
Proof. revert n cls a. apply declared_attr_Forall. by_eval. Qed.

Lemma attribute_names_tell_types_witness :
  annotation (attr "latitude" [py_float; py_None]
                (Field (DefaultValue PyNone) "Venue latitude")) =
  [py_float; py_None].
Proof.
  apply (attribute_names_tell_types "Venue" Venue).
  - left. vm_compute. reflexivity.
  - by_eval.
Defined.

(** ** Shape of the edge type map *)

(** A decidable property of every item of the display of [EDGE_TYPE_MAP]
    holds of every entry. *)
Ltac by_entries P :=
  let Hall := fresh "Hall" in
  assert (map_Forall P EDGE_TYPE_MAP) as Hall by by_display;
  match goal with
  | Hl : EDGE_TYPE_MAP !! _ = Some _ |- _ =>
      specialize (Hall _ _ Hl); cbn [fst snd] in Hall
  end.

(** X8: no value list of [EDGE_TYPE_MAP] names a relationship type twice. *)
Theorem edge_type_lists_distinct (s t : string) (l : list string) :
  EDGE_TYPE_MAP !! (s, t) = Some l → NoDup l.
Proof.
  intros Hl.
  by_entries (λ (_ : string * string) (l : list string), NoDup l).
  exact Hall.
Qed.

Lemma edge_type_lists_distinct_witness :
  NoDup ["DEPARTS_FROM"; "ARRIVES_AT"; "PORT_OF_CALL"].
Proof.
  apply (edge_type_lists_distinct "Cruise" "Venue").
  vm_compute. reflexivity.
Defined.



(** X10: the wildcard target is used for booking provenance and for
    nothing else: an entry lists ["BOOKED_WITH"] exactly when its target is
    ["Entity"], and its list is then ["BOOKED_WITH"] alone. *)
Theorem wildcard_means_booked_with (s t : string) (l : list string) :
  EDGE_TYPE_MAP !! (s, t) = Some l →
  ("BOOKED_WITH" ∈ l ↔ t = "Entity") ∧
  (t = "Entity" → l = ["BOOKED_WITH"]).
Proof.
  intros Hl.
  by_entries (λ (k : string * string) (l : list string),
    ("BOOKED_WITH" ∈ l ↔ k.2 = "Entity") ∧
    (k.2 = "Entity" → l = ["BOOKED_WITH"])).
  exact Hall.
Qed.

Lemma wildcard_means_booked_with_witness :
  "BOOKED_WITH" ∈ ["BOOKED_WITH"] ↔ "Entity" = "Entity".
Proof.
  apply (wildcard_means_booked_with "Restaurant" "Entity").
  vm_compute. reflexivity.
Defined.

(** The eight travel reservation types other than the trip itself. *)
Lemma reservation_cases (T : string) :
  T ∈ travel_reservations ∧ T ≠ "Trip" ↔
  T ∈ ["Flight"; "Lodging"; "CarRental"; "RailJourney"; "Cruise";
       "GroundTransport"; "Restaurant"; "Activity"].
Proof.
  unfold travel_reservations. split.
  - intros [HT Hne]. apply elem_of_cons in HT as [-> | HT]; done.
  - intros HT. split; [by right|]. intros ->.
    revert HT. apply (bool_decide_unpack _). by vm_compute.
Qed.

(** X11: containment, booking provenance, traveller association and the
    confirmation number go together: for any name [T], the map permits
    [PART_OF_TRIP] from [T] to Trip, [BOOKED_WITH] from [T] to the wildcard
    and [TRAVELER_ON] from Traveler to [T], and the entity class [T] has an
    attribute [confirmation_number], each exactly when [T] is a travel
    reservation other than Trip. *)
Theorem reservations_share_their_edges (T : string) :
  (permits T "Trip" "PART_OF_TRIP" ↔ T ∈ travel_reservations ∧ T ≠ "Trip") ∧
  (permits T "Entity" "BOOKED_WITH" ↔ T ∈ travel_reservations ∧ T ≠ "Trip") ∧
  (permits "Traveler" T "TRAVELER_ON" ↔ T ∈ travel_reservations ∧ T ≠ "Trip") ∧
  ((∃ cls, ENTITY_TYPES !! T = Some cls ∧
           "confirmation_number" ∈ attribute_names cls) ↔
   T ∈ travel_reservations ∧ T ≠ "Trip").
Proof.
  rewrite reservation_cases. split; [|split; [|split]]; split.
  - intros (l & Hl & Hin). revert Hin.
    by_entries (λ (k : string * string) (l : list string),
      k.2 = "Trip" → "PART_OF_TRIP" ∈ l →
      k.1 ∈ ["Flight"; "Lodging"; "CarRental"; "RailJourney"; "Cruise";
             "GroundTransport"; "Restaurant"; "Activity"]).
    by apply Hall.
  - intros HT. list_cases HT; by_eval.
  - intros (l & Hl & Hin). revert Hin.
    by_entries (λ (k : string * string) (l : list string),
      k.2 = "Entity" → "BOOKED_WITH" ∈ l →
      k.1 ∈ ["Flight"; "Lodging"; "CarRental"; "RailJourney"; "Cruise";
             "GroundTransport"; "Restaurant"; "Activity"]).
    by apply Hall.
  - intros HT. list_cases HT; by_eval.
  - intros (l & Hl & Hin). revert Hin.
    by_entries (λ (k : string * string) (l : list string),
      k.1 = "Traveler" → "TRAVELER_ON" ∈ l →
      k.2 ∈ ["Flight"; "Lodging"; "CarRental"; "RailJourney"; "Cruise";
             "GroundTransport"; "Restaurant"; "Activity"]).
    by apply Hall.
  - intros HT. list_cases HT; by_eval.
  - intros (cls & Hcls & Hin). revert Hin.
    assert (map_Forall (λ (n : string) (cls : BaseModel),
              "confirmation_number" ∈ attribute_names cls →
              n ∈ ["Flight"; "Lodging"; "CarRental"; "RailJourney"; "Cruise";
                   "GroundTransport"; "Restaurant"; "Activity"])
              ENTITY_TYPES) as Hall by by_display.
    apply (Hall _ _ Hcls).
  - intros HT. list_cases HT;
      (eexists; split; [vm_compute; reflexivity | by_eval]).
Qed.

Lemma reservations_share_their_edges_witness :
  permits "Traveler" "Restaurant" "TRAVELER_ON".
Proof.
  apply (proj2 (proj1 (proj2 (proj2 (reservations_share_their_edges "Restaurant"))))).
  split; [by_eval | discriminate].
Defined.

(** X12: among the declared entity types, Traveler is the only one that is
    never a target, and City, Airline and TransportProvider are the only
    ones that are never a source. *)
Theorem sources_and_sinks (e : string) :
  e ∈ dom ENTITY_TYPES →
  ((∃ s, is_Some (EDGE_TYPE_MAP !! (s, e))) ↔ e ≠ "Traveler") ∧
  ((∃ t, is_Some (EDGE_TYPE_MAP !! (e, t))) ↔
   e ∉ ["City"; "Airline"; "TransportProvider"]).
Proof.
  intros He%ENTITY_TYPES_keys. split; split.
  - intros (s & l & Hl).
    by_entries (λ (k : string * string) (_ : list string), k.2 ≠ "Traveler").
    exact Hall.
  - intros Hne.
    assert (Forall (λ e, e ≠ "Traveler" →
              Exists (λ kv : (string * string) * list string, kv.1.2 = e)
                EDGE_TYPE_MAP_items) ENTITY_TYPES_items.*1) as Hall by by_eval.
    pose proof (proj1 (Forall_forall _ _) Hall e He Hne) as Hex.
    apply (dict_literal_Exists (λ k _, k.2 = e)) in Hex
      as ([s t] & l & Hl & <-); [|apply EDGE_TYPE_MAP_NoDup].
    by exists s, l.
  - intros (t & l & Hl).
    by_entries (λ (k : string * string) (_ : list string),
      k.1 ∉ ["City"; "Airline"; "TransportProvider"]).
    exact Hall.
  - intros Hne.
    assert (Forall (λ e, e ∉ ["City"; "Airline"; "TransportProvider"] →
              Exists (λ kv : (string * string) * list string, kv.1.1 = e)
                EDGE_TYPE_MAP_items) ENTITY_TYPES_items.*1) as Hall by by_eval.
    pose proof (proj1 (Forall_forall _ _) Hall e He Hne) as Hex.
    apply (dict_literal_Exists (λ k _, k.1 = e)) in Hex
      as ([s t] & l & Hl & <-); [|apply EDGE_TYPE_MAP_NoDup].
    by exists t, l.
Qed.

Lemma sources_and_sinks_witness :
  (∃ s, is_Some (EDGE_TYPE_MAP !! (s, "City"))) ↔ "City" ≠ "Traveler".
Proof.
  apply (sources_and_sinks "City").
  apply ENTITY_TYPES_keys. by_eval.
Defined.

(** Every key that joins two different types goes down a layer. *)
Lemma links_layer s t : links s t → layer t < layer s.
Proof.
  intros [Hne [l Hl]]. revert Hne.
  by_entries (λ (k : string * string) (_ : list string),
    k.1 ≠ k.2 → layer k.2 < layer k.1).
  exact Hall.
Qed.

Lemma tc_links_layer s t : tc links s t → layer t < layer s.
Proof.
  induction 1 as [s t Hst | s t u Hst _ IH].
  - by apply links_layer.
  - apply links_layer in Hst. lia.
Qed.

(** Chains of keys exist: a traveller reaches a city in three steps. *)
Example Traveler_reaches_City : tc links "Traveler" "City".
Proof.
  apply tc_l with "Flight"; [by_eval|].
  apply tc_l with "Airport"; [by_eval|].
  apply tc_once. by_eval.
Qed.

(** X13: the map has no cycle through different types: following keys
    that join two different types, one after another, never leads back to
    the type one started from.  The only loops are the same-type keys. *)
Theorem edge_type_map_acyclic (s : string) : ¬ tc links s s.
Proof. intros Hs%tc_links_layer. lia. Qed.

(** X14: the types that depart and arrive are the types that have an
    operator: the map permits [DEPARTS_FROM] from [s] to some target
    exactly when it permits [OPERATED_BY] from [s] to some target; and a
    type that connects to itself is one of them. *)
Theorem transport_types_have_operators (s : string) :
  ((∃ t, permits s t "DEPARTS_FROM") ↔ (∃ t, permits s t "OPERATED_BY")) ∧
  (permits s s "CONNECTS_TO" → ∃ t, permits s t "DEPARTS_FROM").
Proof.
  assert ((∃ t, permits s t "DEPARTS_FROM") ↔
          s ∈ ["Flight"; "RailJourney"; "Cruise"; "GroundTransport"; "CarRental"])
    as Hdep.
  { split.
    - intros (t & l & Hl & Hin). revert Hin.
      by_entries (λ (k : string * string) (l : list string),
        "DEPARTS_FROM" ∈ l →
        k.1 ∈ ["Flight"; "RailJourney"; "Cruise"; "GroundTransport"; "CarRental"]).
      exact Hall.
    - intros Hs. list_cases Hs;
        ((exists "Airport"; by_eval) || (exists "Venue"; by_eval)). }
  assert ((∃ t, permits s t "OPERATED_BY") ↔
          s ∈ ["Flight"; "RailJourney"; "Cruise"; "GroundTransport"; "CarRental"])
    as Hop.
  { split.
    - intros (t & l & Hl & Hin). revert Hin.
      by_entries (λ (k : string * string) (l : list string),
        "OPERATED_BY" ∈ l →
        k.1 ∈ ["Flight"; "RailJourney"; "Cruise"; "GroundTransport"; "CarRental"]).
      exact Hall.
    - intros Hs. list_cases Hs;
        ((exists "Airline"; by_eval) || (exists "TransportProvider"; by_eval)). }
  split; [by rewrite Hdep, Hop|].
  intros (l & Hl & Hin). apply Hdep. revert Hin.
  by_entries (λ (k : string * string) (l : list string),
    "CONNECTS_TO" ∈ l →
    k.1 ∈ ["Flight"; "RailJourney"; "Cruise"; "GroundTransport"; "CarRental"]).
  exact Hall.
Qed.

Lemma transport_types_have_operators_witness :
  ∃ t, permits "GroundTransport" t "DEPARTS_FROM".
Proof.
  apply (proj2 (transport_types_have_operators "GroundTransport")).
  by_eval.
Defined.

(** ** Validation errors *)

(** When every attribute defaults to [None], each error is about an
    attribute that was given a value outside its annotation. *)
Lemma validate_attributes_errors data attrs n e :
  Forall optional_scalar attrs →
  (n, e) ∈ (validate_attributes data attrs).2 →
  e = invalid_type ∧
  ∃ a v, a ∈ attrs ∧ attr_name a = n ∧ data !! n = Some v ∧
         accepts (annotation a) v = false.
Proof.
  induction attrs as [|a attrs IH]; intros Hopt Hin.
  - by apply elem_of_nil in Hin.
  - apply Forall_cons in Hopt as [[Hd _] Hopt].
    cbn [validate_attributes] in Hin.
    destruct (validate_attributes data attrs) as [values errors] eqn:Hrest.
    assert ((n, e) ∈ errors → e = invalid_type ∧
            ∃ a' v, a' ∈ a :: attrs ∧ attr_name a' = n ∧ data !! n = Some v ∧
                    accepts (annotation a') v = false) as Hrec.
    { intros Hin'. destruct (IH Hopt Hin') as (He & a' & v & Ha' & ?).
      split; [done|]. exists a', v. split; [by right | done]. }
    unfold validate_attribute in Hin. rewrite Hd in Hin.
    destruct (data !! attr_name a) as [v|] eqn:Hv; [|by apply Hrec].
    destruct (accepts (annotation a) v) eqn:Hacc; [by apply Hrec|].
    cbn [snd] in Hin. apply elem_of_cons in Hin as [[= -> ->] | Hin];
      [|by apply Hrec].
    split; [done|]. exists a, v. split; [by left | done].
Qed.

(** X15: validating a declared class never reports a missing attribute:
    every error names an attribute of the class that was given a value
    whose type is outside its annotation. *)
Theorem declared_classes_never_miss
    (name : string) (cls : BaseModel) (data : gmap string Value)
    (errors : list (string * ErrorType)) (n : string) (e : ErrorType) :
  declared name cls →
  model_validate cls data = inr errors →
  (n, e) ∈ errors →
  e = invalid_type ∧
  ∃ a v, a ∈ model_fields cls ∧ attr_name a = n ∧ data !! n = Some v ∧
         accepts (annotation a) v = false.
Proof.
  intros Hd Hv Hin.
  assert (Forall optional_scalar (model_fields cls)) as Hopt.
  { destruct Hd as [Hd | Hd].
    - apply (ENTITY_TYPES_optional _ _ Hd).
    - apply (EDGE_TYPES_optional _ _ Hd). }
  apply (validate_attributes_errors data (model_fields cls)); [done|].
  unfold model_validate in Hv.
  destruct (validate_attributes data (model_fields cls)) as [values errs].
  destruct errs; [done|]. by injection Hv as <-.
Qed.

Lemma declared_classes_never_miss_witness :
  invalid_type = invalid_type ∧
  ∃ a v, a ∈ model_fields Trip ∧ attr_name a = "destination" ∧
         ({[ "destination" := PyInt 7 ]} : gmap string Value) !! "destination"
           = Some v ∧
         accepts (annotation a) v = false.
Proof.
  apply (declared_classes_never_miss "Trip" Trip
           {[ "destination" := PyInt 7 ]}
           [("destination", invalid_type)] "destination" invalid_type).
  - left. vm_compute. reflexivity.
  - vm_compute. reflexivity.
  - left.
Defined.
